(** * ingestr: the [ingest] command of [ingestr/main.py]

    A shallow embedding of the orchestration code of [ingestr/main.py]:
    the defaulting of the destination table, the rewriting of the
    [delete+insert] strategy, the derivation of the pipeline name with
    [hashlib.sha256], the confirmation gate and the call of
    [pipeline.run].

    Conventions.  A Python [str] is represented by the Rocq [string] of its
    UTF-8 bytes, a lone surrogate code point (which a [str] can hold, and
    which UTF-8 refuses) by the three bytes [ED A0..BF 80..BF] of its
    generalised form.  [s.encode("utf-8")] is then the list of the byte
    values of the string, and raises when the string holds a surrogate.
    [None] is [None]; an optional argument is an [option]. *)

From Stdlib Require Import ZArith List String Ascii Bool Lia.
Import ListNotations.

(* ================================================================== *)
(** ** [hashlib.sha256]: SHA-256 (FIPS 180-4) on 32-bit words held in [Z] *)
(* ================================================================== *)

Module Sha256.
Local Open Scope Z_scope.

(** 32-bit words: every result is reduced modulo [2^32]. *)
Definition wrap (x : Z) : Z := x mod 2 ^ 32.
Definition add32 (x y : Z) : Z := wrap (x + y).
Definition rotr (n x : Z) : Z :=
  Z.lor (Z.shiftr x n) (wrap (Z.shiftl x (32 - n))).
Definition not32 (x : Z) : Z := Z.lxor x (2 ^ 32 - 1).

Definition Ch (x y z : Z) : Z := Z.lxor (Z.land x y) (Z.land (not32 x) z).
Definition Maj (x y z : Z) : Z :=
  Z.lxor (Z.lxor (Z.land x y) (Z.land x z)) (Z.land y z).
Definition bsig0 (x : Z) : Z := Z.lxor (Z.lxor (rotr 2 x) (rotr 13 x)) (rotr 22 x).
Definition bsig1 (x : Z) : Z := Z.lxor (Z.lxor (rotr 6 x) (rotr 11 x)) (rotr 25 x).
Definition ssig0 (x : Z) : Z := Z.lxor (Z.lxor (rotr 7 x) (rotr 18 x)) (Z.shiftr x 3).
Definition ssig1 (x : Z) : Z := Z.lxor (Z.lxor (rotr 17 x) (rotr 19 x)) (Z.shiftr x 10).

(** The constants are the first 32 bits of the fractional parts of the
    square roots (initial hash value) and of the cube roots (round
    constants) of the first primes; they are computed here from that
    definition rather than tabulated. *)
Definition primes64 : list Z :=
  [2; 3; 5; 7; 11; 13; 17; 19; 23; 29; 31; 37; 41; 43; 47; 53;
   59; 61; 67; 71; 73; 79; 83; 89; 97; 101; 103; 107; 109; 113; 127; 131;
   137; 139; 149; 151; 157; 163; 167; 173; 179; 181; 191; 193; 197; 199;
   211; 223; 227; 229; 233; 239; 241; 251; 257; 263; 269; 271; 277; 281;
   283; 293; 307; 311].

(** Integer cube root by bisection on the bits, most significant first. *)
Fixpoint cbrt_bits (n : nat) (x acc : Z) : Z :=
  match n with
  | O => acc
  | S k =>
      let c := acc + 2 ^ Z.of_nat k in
      if c * c * c <=? x then cbrt_bits k x c else cbrt_bits k x acc
  end.

Definition frac_sqrt32 (p : Z) : Z := wrap (Z.sqrt (p * 2 ^ 64)).
Definition frac_cbrt32 (p : Z) : Z := wrap (cbrt_bits 40 (p * 2 ^ 96) 0).

Definition K : list Z := Eval vm_compute in map frac_cbrt32 primes64.

(** The eight working variables, also the shape of the hash value. *)
Record regs : Type := Regs {
  ra : Z; rb : Z; rc : Z; rd : Z; re : Z; rf : Z; rg : Z; rh : Z
}.

Definition H0 : regs :=
  Eval vm_compute in
  match map frac_sqrt32 (firstn 8 primes64) with
  | [a; b; c; d; e; f; g; h] => Regs a b c d e f g h
  | _ => Regs 0 0 0 0 0 0 0 0
  end.

(** One round with round constant [k] and schedule word [w]. *)
Definition round (s : regs) (k w : Z) : regs :=
  let t1 := add32 (add32 (add32 (add32 (rh s) (bsig1 (re s)))
                                (Ch (re s) (rf s) (rg s))) k) w in
  let t2 := add32 (bsig0 (ra s)) (Maj (ra s) (rb s) (rc s)) in
  Regs (add32 t1 t2) (ra s) (rb s) (rc s) (add32 (rd s) t1) (re s) (rf s) (rg s).

(** The message schedule is kept as a window of the last sixteen words:
    the head is [W(t)], and [W(t+16)] is appended once it has been used. *)
Definition next_word (win : list Z) : Z :=
  add32 (add32 (add32 (ssig1 (nth 14 win 0)) (nth 9 win 0))
               (ssig0 (nth 1 win 0)))
        (nth 0 win 0).

Fixpoint rounds (ks : list Z) (win : list Z) (s : regs) : regs :=
  match ks with
  | [] => s
  | k :: ks' =>
      rounds ks' (tl win ++ [next_word win]) (round s k (hd 0 win))
  end.

Definition add_regs (x y : regs) : regs :=
  Regs (add32 (ra x) (ra y)) (add32 (rb x) (rb y))
       (add32 (rc x) (rc y)) (add32 (rd x) (rd y))
       (add32 (re x) (re y)) (add32 (rf x) (rf y))
       (add32 (rg x) (rg y)) (add32 (rh x) (rh y)).

(** Big-endian 32-bit words of a list of bytes. *)
Fixpoint be_words (n : nat) (bs : list Z) : list Z :=
  match n with
  | O => []
  | S k =>
      (nth 0 bs 0 * 2 ^ 24 + nth 1 bs 0 * 2 ^ 16 + nth 2 bs 0 * 2 ^ 8 + nth 3 bs 0)
        :: be_words k (skipn 4 bs)
  end.

Definition compress (s : regs) (block : list Z) : regs :=
  add_regs s (rounds K (be_words 16 block) s).

(** Padding: the bit 1, zeros up to 56 modulo 64 bytes, then the length
    of the message in bits as a 64-bit big-endian integer. *)
Fixpoint be_bytes (n : nat) (x : Z) : list Z :=
  match n with
  | O => []
  | S k => (x / 2 ^ (8 * Z.of_nat k)) mod 256 :: be_bytes k x
  end.

Definition pad (msg : list Z) : list Z :=
  let len := Z.of_nat (List.length msg) in
  msg ++ [128] ++ repeat 0 (Z.to_nat ((55 - len) mod 64)) ++ be_bytes 8 (8 * len).

Fixpoint blocks (n : nat) (s : regs) (bs : list Z) : regs :=
  match n with
  | O => s
  | S k => blocks k (compress s (firstn 64 bs)) (skipn 64 bs)
  end.

Definition digest_regs (msg : list Z) : regs :=
  let p := pad msg in blocks (List.length p / 64) H0 p.

(** Lower-case hexadecimal, as [hexdigest] prints it. *)
Definition hex_digit (d : Z) : ascii :=
  nth (Z.to_nat (d mod 16))
      (list_ascii_of_string "0123456789abcdef") "0"%char.

Fixpoint hex_nibbles (n : nat) (x : Z) : string :=
  match n with
  | O => EmptyString
  | S k => String (hex_digit (x / 16 ^ Z.of_nat k)) (hex_nibbles k x)
  end.

Definition hex_regs (s : regs) : string :=
  (hex_nibbles 8 (ra s) ++ hex_nibbles 8 (rb s) ++ hex_nibbles 8 (rc s)
   ++ hex_nibbles 8 (rd s) ++ hex_nibbles 8 (re s) ++ hex_nibbles 8 (rf s)
   ++ hex_nibbles 8 (rg s) ++ hex_nibbles 8 (rh s))%string.

(** The hash object: [hashlib.sha256()], [m.update(data)], [m.hexdigest()].
    The object accumulates the bytes fed to it. *)
Record hasher : Type := Hasher { fed : list Z }.

Definition sha256 : hasher := Hasher [].
Definition update (m : hasher) (data : list Z) : hasher := Hasher (fed m ++ data).
Definition hexdigest (m : hasher) : string := hex_regs (digest_regs (fed m)).

End Sha256.

(** [s.encode("utf-8")]: the byte values of the string. *)
Definition encode_utf8 (s : string) : list Z :=
  map (fun c => Z.of_N (N_of_ascii c)) (list_ascii_of_string s).


(* ================================================================== *)
(** ** Values of the command line *)
(* ================================================================== *)

(** The accepted textual formats of the interval bounds. *)
Definition DATE_FORMATS : list string :=
  ["%Y-%m-%d";
   "%Y-%m-%dT%H:%M:%S";
   "%Y-%m-%dT%H:%M:%S%z";
   "%Y-%m-%d %H:%M:%S";
   "%Y-%m-%dT%H:%M:%S.%f";
   "%Y-%m-%dT%H:%M:%S.%f%z"]%string.

(** A parsed [datetime]: the calendar fields, and the UTC offset in
    seconds when the text carried one ([%z]). *)
Record datetime : Type := Datetime {
  year : Z; month : Z; day : Z;
  hour : Z; minute : Z; second : Z; microsecond : Z;
  utcoffset : option Z
}.

(** The keyword arguments of one call of [ingest].  The three required
    options are strings; every other parameter has a default in the
    signature, and is [None] here when the caller leaves it out. *)
Record Call : Type := mkCall {
  source_uri : string;
  dest_uri : string;
  source_table : string;
  dest_table : option string;
  incremental_key : option string;
  incremental_strategy : option string;
  interval_start : option datetime;
  interval_end : option datetime;
  primary_key : option (list string)
}.

(** Binding of a parameter to its default when the caller gives none. *)
Definition or_default {A : Type} (given : option A) (dflt : A) : A :=
  match given with
  | Some v => v
  | None => dflt
  end.

(** Truth value of an optional [str]: [None] and the empty string are false. *)
Definition truthy_str (s : option string) : bool :=
  match s with
  | None => false
  | Some EmptyString => false
  | Some (String _ _) => true
  end.

(** Truth value of an optional list: [None] and the empty list are false. *)
Definition truthy_list {A : Type} (l : option (list A)) : bool :=
  match l with
  | None => false
  | Some [] => false
  | Some (_ :: _) => true
  end.

Definition len_opt {A : Type} (l : option (list A)) : Z :=
  match l with
  | None => 0
  | Some xs => Z.of_nat (List.length xs)
  end.

(* ================================================================== *)
(** ** The collaborators: factory, prompt, pipeline *)
(* ================================================================== *)

(** What [ingest] reads from the factory object. *)
Record Factory : Type := mkFactory {
  source_scheme : string;
  destination_scheme : string
}.

(** Keyword arguments of [source.dlt_source]. *)
Record SourceArgs : Type := mkSourceArgs {
  ds_uri : string;
  ds_table : string;
  ds_incremental_key : option string;
  ds_merge_key : option string;
  ds_interval_start : option datetime;
  ds_interval_end : option datetime
}.

(** Keyword arguments of [destination.dlt_run_params]. *)
Record RunParams : Type := mkRunParams {
  rp_uri : string;
  rp_table : string
}.

(** Keyword arguments of [dlt.pipeline]. *)
Record Pipeline : Type := mkPipeline {
  pipeline_name : string;
  destination : string;          (* [destination.dlt_dest(uri=dest_uri)] *)
  dump_system_stats : bool;      (* [dlt.progress.log(...)] *)
  pipelines_dir : string;
  dataset_name : string
}.

(** One [pipeline.run] statement: the pipeline, and the keyword arguments
    given to [dlt_source], to [dlt_run_params] and to [run]. *)
Record RunCall : Type := mkRunCall {
  run_pipeline : Pipeline;
  run_source : SourceArgs;
  run_params : RunParams;
  write_disposition : string;
  run_primary_key : option (list string)
}.

(** What [ingest] reads from the value [pipeline.run] returns: times in
    microseconds. *)
Record RunInfo : Type := mkRunInfo {
  started_at : option Z;
  finished_at : Z
}.

(** Exceptions: [typer.Abort], raised by [ingest] itself, and the
    exceptions of the collaborators, named by their class. *)
Inductive exn : Type :=
| Abort
| Error (cls : string).

Inductive result (A : Type) : Type :=
| Ok (a : A)
| Raise (e : exn).
Arguments Ok {A} a.
Arguments Raise {A} e.

(** [s.encode("utf-8")]: a string that holds a surrogate raises
    [UnicodeEncodeError]. *)
Fixpoint has_surrogate (s : string) : bool :=
  match s with
  | EmptyString => false
  | String a rest =>
      match rest with
      | EmptyString => false
      | String b _ =>
          ((N_of_ascii a =? 237) && (160 <=? N_of_ascii b) && (N_of_ascii b <=? 191))%N
          || has_surrogate rest
      end
  end.

Definition encode (s : string) : result (list Z) :=
  if has_surrogate s then Raise (Error "UnicodeEncodeError")
  else Ok (encode_utf8 s).

(** The environment of a run, that is the code [ingest] calls and that
    lives outside [main.py], as it stands when the command is run (with
    whatever state it keeps on disk):
    - [SourceDestinationFactory(source_uri, dest_uri)] followed by
      [get_source()] and [get_destination()]: one of them raises, or the
      factory is there with its two schemes;
    - [destination.dlt_dest(uri=...)] and [dlt.pipeline(...)] (with the
      progress logger it is given), which raise or return;
    - [console.print] of a line built from the options: the markup of
      the line is refused with an exception, or the line is shown;
    - the answer of the user to [typer.confirm] ([false] also stands for
      a prompt that is closed, which raises [typer.Abort] as well);
    - the statement [pipeline.run(source.dlt_source(...),
      **destination.dlt_run_params(...), ...)], which raises (in the
      evaluation of its arguments or in the run) or returns the run
      information;
    - [humanize.precisedelta]. *)
Record Env : Type := mkEnv {
  SourceDestinationFactory : string -> string -> result Factory;
  dlt_dest_result : string -> result unit;
  dlt_pipeline_result : Pipeline -> result unit;
  console_print_result : string -> result unit;
  confirm_answer : string -> bool;
  pipeline_run_result : RunCall -> result RunInfo;
  precisedelta : Z -> string
}.

(** The observable state: the lines printed on the console, and the
    [pipeline.run] statements begun so far, each with the keyword
    arguments [ingest] supplies to [dlt_source], to [dlt_run_params] and
    to [run]. *)
Record World : Type := mkWorld {
  console : list string;
  engine_calls : list RunCall
}.

Definition empty_world : World := mkWorld [] [].

(** State and exception monad of the command. *)
Definition M (A : Type) : Type := World -> result A * World.

Definition ret {A : Type} (a : A) : M A := fun w => (Ok a, w).

Definition bind {A B : Type} (m : M A) (k : A -> M B) : M B :=
  fun w =>
    match m w with
    | (Ok a, w') => k a w'
    | (Raise e, w') => (Raise e, w')
    end.

Definition raise {A : Type} (e : exn) : M A := fun w => (Raise e, w).

Notation "x <- m ;; k" := (bind m (fun x => k))
  (at level 61, m at next level, right associativity).
Notation "m ;;; k" := (bind m (fun _ => k))
  (at level 61, right associativity).

(** [print] of a constant line, whose markup is well formed, or of no
    line at all: the line is shown. *)
Definition print (line : string) : M unit :=
  fun w => (Ok tt, mkWorld (console w ++ [line]) (engine_calls w)).

Definition new_factory (env : Env) (src dst : string) : M Factory :=
  fun w => (SourceDestinationFactory env src dst, w).

Definition typer_confirm (env : Env) (prompt : string) : M bool :=
  fun w => (Ok (confirm_answer env prompt), w).

(** A value or an exception computed without effect. *)
Definition lift {A : Type} (r : result A) : M A := fun w => (r, w).

Definition dlt_dest (env : Env) (uri : string) : M unit :=
  lift (dlt_dest_result env uri).

Definition dlt_pipeline (env : Env) (p : Pipeline) : M unit :=
  lift (dlt_pipeline_result env p).

(** [print] of a line built from the options: shown unless refused. *)
Definition print_markup (env : Env) (line : string) : M unit :=
  fun w =>
    match console_print_result env line with
    | Ok _ => (Ok tt, mkWorld (console w ++ [line]) (engine_calls w))
    | Raise e => (Raise e, w)
    end.

(** The [pipeline.run] statement: its arguments are recorded, then the
    statement raises or returns. *)
Definition pipeline_run (env : Env) (rc : RunCall) : M RunInfo :=
  fun w =>
    (pipeline_run_result env rc,
     mkWorld (console w) (engine_calls w ++ [rc])).

(* ================================================================== *)
(** ** The command [ingest] *)
(* ================================================================== *)

Local Open Scope string_scope.

(** The [str] held by an optional that is known to be one. *)
Definition str_value (s : option string) : string := or_default s EmptyString.

Definition ingest (env : Env) (c : Call) : M unit :=
  (* parameters, with the defaults of the signature *)
  let source_uri := source_uri c in
  let dest_uri := dest_uri c in
  let source_table := source_table c in
  let incremental_key := incremental_key c in
  let incremental_strategy := or_default (incremental_strategy c) "replace" in
  let interval_start := interval_start c in
  let interval_end := interval_end c in
  let primary_key := primary_key c in
  (* if not dest_table: ... dest_table = source_table *)
  dest_table <-
    (if negb (truthy_str (dest_table c)) then
       print EmptyString ;;;
       print "[yellow]Destination table is not given, defaulting to the source table.[/yellow]" ;;;
       ret source_table
     else ret (str_value (dest_table c))) ;;
  (* merge_key = None; if incremental_strategy == "delete+insert": ... *)
  let merge_key : option string := None in
  let '(merge_key, incremental_strategy) :=
    if String.eqb incremental_strategy "delete+insert"
    then (incremental_key, "merge")
    else (merge_key, incremental_strategy) in
  (* factory = SourceDestinationFactory(...); get_source(); get_destination() *)
  factory <- new_factory env source_uri dest_uri ;;
  (* m = hashlib.sha256(); m.update(dest_table.encode("utf-8")) *)
  let m := Sha256.sha256 in
  data <- lift (encode dest_table) ;;
  let m := Sha256.update m data in
  (* pipeline = dlt.pipeline(pipeline_name=m.hexdigest(),
                             destination=destination.dlt_dest(uri=dest_uri), ...) *)
  let name := Sha256.hexdigest m in
  dlt_dest env dest_uri ;;;
  let pipeline := mkPipeline name dest_uri false "pipeline_data" "testschema" in
  dlt_pipeline env pipeline ;;;
  print EmptyString ;;;
  print "[bold green]Initiated the pipeline with the following:[/bold green]" ;;;
  print_markup env ("[bold yellow]  Source:[/bold yellow] "
                      ++ source_scheme factory ++ " / " ++ source_table) ;;;
  print_markup env ("[bold yellow]  Destination:[/bold yellow] "
                      ++ destination_scheme factory ++ " / " ++ dest_table) ;;;
  print_markup env ("[bold yellow]  Incremental Strategy:[/bold yellow] "
                      ++ incremental_strategy) ;;;
  print_markup env ("[bold yellow]  Incremental Key:[/bold yellow] "
                      ++ (if truthy_str incremental_key
                          then str_value incremental_key else "None")) ;;;
  print EmptyString ;;;
  continuePipeline <- typer_confirm env "Are you sure you would like to continue?" ;;
  (if negb continuePipeline then raise Abort else ret tt) ;;;
  print EmptyString ;;;
  print "[bold green]Starting the ingestion...[/bold green]" ;;;
  print EmptyString ;;;
  run_info <-
    pipeline_run env
      (mkRunCall
         pipeline
         (mkSourceArgs source_uri source_table incremental_key merge_key
                       interval_start interval_end)
         (mkRunParams dest_uri dest_table)
         incremental_strategy
         (if truthy_list primary_key && (0 <? len_opt primary_key)%Z
          then primary_key else None)) ;;
  let elapsedHuman :=
    match started_at run_info with
    | Some started =>
        "in " ++ precisedelta env (finished_at run_info - started)%Z
    | None => EmptyString
    end in
  print EmptyString ;;;
  print_markup env
    ("[bold green]Successfully finished loading data from '"
       ++ source_scheme factory ++ "' to '" ++ destination_scheme factory
       ++ "' " ++ elapsedHuman ++ " [/bold green]").

(** *** The values of the local variables, as functions of the call *)

(** [dest_table] after the defaulting at the head of [ingest]. *)
Definition dest_table_used (c : Call) : string :=
  if truthy_str (dest_table c) then str_value (dest_table c) else source_table c.

(** [incremental_strategy] as bound on entry. *)
Definition strategy_given (c : Call) : string :=
  or_default (incremental_strategy c) "replace".

(** [pipeline_name] of the pipeline of a table: the spec's [derive]. *)
Definition derive (table : string) : string :=
  Sha256.hexdigest (Sha256.update Sha256.sha256 (encode_utf8 table)).

(** *** Collisions of the compression function

    What it takes for two table names to get the same pipeline name. *)








(** *** Reading the outcome of a run *)

(** The [pipeline.run] statements a run of [ingest] begins. *)
Definition runs {A : Type} (w : World) (out : result A * World) (l : list RunCall) : Prop :=
  engine_calls (snd out) = (engine_calls w ++ l)%list.

(** The run stops with exception [e] before any [pipeline.run] statement. *)
Definition rejected_with {A : Type} (w : World) (out : result A * World) (e : exn) : Prop :=
  fst out = Raise e /\ runs w out [].

(** *** The resolver of the spec

    The spec describes the strategy step as a function
    [resolve(strategy_name, incremental_key, ...) -> LoadPlan]; in the
    code it is the part of [ingest] that fixes the write disposition and
    the merge key handed to [pipeline.run].  A plan is read off the call
    [ingest] makes. *)
Record LoadPlan : Type := mkLoadPlan {
  lp_write_disposition : string;
  lp_incremental_key : option string;
  lp_merge_key : option string;
  lp_interval_start : option datetime;
  lp_interval_end : option datetime;
  lp_primary_key : option (list string)
}.

Definition plan_of_run (rc : RunCall) : LoadPlan :=
  mkLoadPlan (write_disposition rc)
             (ds_incremental_key (run_source rc))
             (ds_merge_key (run_source rc))
             (ds_interval_start (run_source rc))
             (ds_interval_end (run_source rc))
             (run_primary_key rc).

(** An environment in which nothing fails and the user agrees. *)
Definition agreeable : Env :=
  mkEnv (fun src dst => Ok (mkFactory "postgres" "duckdb"))
        (fun _ => Ok tt) (fun _ => Ok tt) (fun _ => Ok tt)
        (fun _ => true)
        (fun _ => Ok (mkRunInfo None 0))
        (fun _ => "a moment").

(** The plan [ingest] hands to the pipeline in an environment where the
    run reaches it; [None] when it does not. *)
Definition resolve (env : Env) (c : Call) : option LoadPlan :=
  match engine_calls (snd (ingest env c empty_world)) with
  | [rc] => Some (plan_of_run rc)
  | _ => None
  end.

(** Feeding a plan's write disposition back as the strategy name. *)
Definition with_strategy (c : Call) (s : string) : Call :=
  mkCall (source_uri c) (dest_uri c) (source_table c) (dest_table c)
         (incremental_key c) (Some s) (interval_start c) (interval_end c)
         (primary_key c).

(** *** Order of two parsed datetimes

    [ingest] never compares the bounds; the order below is the one of
    Python's [datetime], used to say which calls a claim is about. *)

(** Days from 1970-01-01 to a date of the proleptic Gregorian calendar. *)
Definition days_from_civil (y m d : Z) : Z :=
  let y' := if (m <=? 2)%Z then (y - 1)%Z else y in
  let era := (y' / 400)%Z in
  let yoe := (y' - era * 400)%Z in
  let mp := ((m + 9) mod 12)%Z in
  let doy := ((153 * mp + 2) / 5 + d - 1)%Z in
  let doe := (yoe * 365 + yoe / 4 - yoe / 100 + doy)%Z in
  (era * 146097 + doe - 719468)%Z.

Definition is_leap (y : Z) : bool :=
  ((y mod 4 =? 0) && negb (y mod 100 =? 0) || (y mod 400 =? 0))%Z.

Definition days_in_month (y m : Z) : Z :=
  if (m =? 2)%Z then (if is_leap y then 29 else 28)%Z
  else if ((m =? 4) || (m =? 6) || (m =? 9) || (m =? 11))%Z then 30%Z
  else 31%Z.

(** The values [datetime.strptime] can produce. *)
Definition well_formed (t : datetime) : bool :=
  ((1 <=? year t) && (year t <=? 9999)
   && (1 <=? month t) && (month t <=? 12)
   && (1 <=? day t) && (day t <=? days_in_month (year t) (month t))
   && (0 <=? hour t) && (hour t <? 24)
   && (0 <=? minute t) && (minute t <? 60)
   && (0 <=? second t) && (second t <? 60)
   && (0 <=? microsecond t) && (microsecond t <? 1000000)
   && match utcoffset t with
      | None => true
      | Some o => (-86400 <? o) && (o <? 86400)
      end)%Z.

(** Microseconds since the epoch; an offset, when there is one, is taken off. *)
Definition instant (t : datetime) : Z :=
  ((days_from_civil (year t) (month t) (day t) * 86400
    + hour t * 3600 + minute t * 60 + second t
    - or_default (utcoffset t) 0) * 1000000
   + microsecond t)%Z.

(** [a < b] on datetimes; Python refuses to order a datetime with an
    offset against one without. *)
Definition precedes (a b : datetime) : bool :=
  match utcoffset a, utcoffset b with
  | None, None | Some _, Some _ => (instant a <? instant b)%Z
  | _, _ => false
  end.

(** A date at midnight, without offset: what the format [%Y-%m-%d] yields. *)
Definition date (y m d : Z) : datetime := Datetime y m d 0 0 0 0 None.

(** A call that gives only the three required options. *)
Definition bare_call (src dst table : string) : Call :=
  mkCall src dst table None None None None None None.


(** [merge_key] and [incremental_strategy] after the rewriting of
    [delete+insert]. *)
Definition merge_key_used (c : Call) : option string :=
  if String.eqb (strategy_given c) "delete+insert" then incremental_key c else None.

Definition write_disposition_used (c : Call) : string :=
  if String.eqb (strategy_given c) "delete+insert" then "merge" else strategy_given c.

(** The [pipeline.run] statement of [ingest] for a call [c], when the run
    gets to it (lemma [ingest_outcome]). *)
Definition call_made (c : Call) : RunCall :=
  mkRunCall
    (mkPipeline (derive (dest_table_used c)) (dest_uri c) false
                "pipeline_data" "testschema")
    (mkSourceArgs (source_uri c) (source_table c) (incremental_key c)
                  (merge_key_used c) (interval_start c) (interval_end c))
    (mkRunParams (dest_uri c) (dest_table_used c))
    (write_disposition_used c)
    (match primary_key c with
     | Some (x :: l) => Some (x :: l)
     | _ => None
     end).

(** *** The lines [ingest] prints, stage by stage *)

(** Printed when [dest_table] is defaulted to the source table. *)
Definition defaulting_notice (c : Call) : list string :=
  if truthy_str (dest_table c) then []
  else [EmptyString;
        "[yellow]Destination table is not given, defaulting to the source table.[/yellow]"].

(** The four lines of the summary that are built from the options. *)
Definition interpolated_lines (f : Factory) (c : Call) : list string :=
  ["[bold yellow]  Source:[/bold yellow] " ++ source_scheme f ++ " / " ++ source_table c;
   "[bold yellow]  Destination:[/bold yellow] "
     ++ destination_scheme f ++ " / " ++ dest_table_used c;
   "[bold yellow]  Incremental Strategy:[/bold yellow] " ++ write_disposition_used c;
   "[bold yellow]  Incremental Key:[/bold yellow] "
     ++ (if truthy_str (incremental_key c) then str_value (incremental_key c) else "None")].

(** The summary shown before the prompt. *)
Definition summary_lines (f : Factory) (c : Call) : list string :=
  ([EmptyString;
    "[bold green]Initiated the pipeline with the following:[/bold green]"]
   ++ interpolated_lines f c ++ [EmptyString])%list.

(** Printed once the user has agreed. *)
Definition starting_lines : list string :=
  [EmptyString; "[bold green]Starting the ingestion...[/bold green]"; EmptyString].

(** The text for the time the run took; empty without a start time. *)
Definition elapsed_text (env : Env) (info : RunInfo) : string :=
  match started_at info with
  | Some started => "in " ++ precisedelta env (finished_at info - started)%Z
  | None => EmptyString
  end.

(** The line that reports the success. *)
Definition success_line (env : Env) (f : Factory) (info : RunInfo) : string :=
  "[bold green]Successfully finished loading data from '"
    ++ source_scheme f ++ "' to '" ++ destination_scheme f
    ++ "' " ++ elapsed_text env info ++ " [/bold green]".

(** Printed after the pipeline has returned. *)
Definition success_lines (env : Env) (f : Factory) (info : RunInfo) : list string :=
  [EmptyString; success_line env f info].

(** Printing lines built from the options, in turn, on a console that
    shows [co]: the console afterwards, and the exception of the first
    line that is refused, if one is. *)
Fixpoint print_lines (env : Env) (ls : list string) (co : list string)
  : result unit * list string :=
  match ls with
  | [] => (Ok tt, co)
  | l :: ls' =>
      match console_print_result env l with
      | Ok _ => print_lines env ls' (co ++ [l])%list
      | Raise e => (Raise e, co)
      end
  end.

Definition the_prompt : string := "Are you sure you would like to continue?".

(** Everything on the way to the [pipeline.run] statement goes well: the
    factory accepts the two URIs, the destination table can be encoded,
    [dlt_dest] and [dlt.pipeline] return, the console shows the lines of
    the summary, and the user agrees to continue. *)
Definition reaches_pipeline (env : Env) (c : Call) : Prop :=
  (exists f, SourceDestinationFactory env (source_uri c) (dest_uri c) = Ok f
             /\ Forall (fun l => console_print_result env l = Ok tt)
                       (interpolated_lines f c))
  /\ has_surrogate (dest_table_used c) = false
  /\ dlt_dest_result env (dest_uri c) = Ok tt
  /\ dlt_pipeline_result env (run_pipeline (call_made c)) = Ok tt
  /\ confirm_answer env the_prompt = true.

(** The four strategy names of the help text. *)
Definition known_strategy (s : string) : bool :=
  String.eqb s "replace" || String.eqb s "append"
  || String.eqb s "delete+insert" || String.eqb s "merge".

(** A call on the URIs and the table of the spec's scenarios. *)
Definition sample (strategy key : option string) (pk : option (list string))
    (i_start i_end : option datetime) : Call :=
  mkCall "postgres://u:p@h/db" "duckdb://path/db" "orders" None
         key strategy i_start i_end pk.

(** The calls of the scenarios. *)
Definition call_delete_insert_id : Call :=
  sample (Some "delete+insert") (Some "id") None None None.

Definition call_merge_no_keys : Call :=
  sample (Some "merge") None None None None.

Definition call_end_before_start : Call :=
  sample (Some "append") (Some "updated_at") None
         (Some (date 2024 1 2)) (Some (date 2024 1 1)).

Definition call_bounds_no_key : Call :=
  sample None None None (Some (date 2024 1 1)) None.

Definition call_upsert : Call :=
  sample (Some "upsert") None None None None.

Definition call_merge_two_keys : Call :=
  sample (Some "merge") None (Some ["id"; "region"]) None None.

(** The first scenario of the spec, and a call by another route into
    the same destination table. *)
Definition call_orders : Call :=
  bare_call "postgres://u:p@h/db" "duckdb://path/db" "orders".

Definition call_into_orders : Call :=
  mkCall "mysql://h/db" "bigquery://p" "staging_orders"
         (Some "orders") (Some "id") (Some "append") None None None.

(** An environment whose pipeline fails once it is run. *)
Definition failing_pipeline : Env :=
  mkEnv (fun src dst => Ok (mkFactory "mysql" "bigquery"))
        (fun _ => Ok tt) (fun _ => Ok tt) (fun _ => Ok tt)
        (fun _ => true)
        (fun _ => Raise (Error "PipelineStepFailed"))
        (fun _ => "a moment").

(** The characters of a lower-case hexadecimal digest. *)
Definition is_hex_char (a : ascii) : bool :=
  existsb (Ascii.eqb a) (list_ascii_of_string "0123456789abcdef").

Fixpoint all_chars (p : ascii -> bool) (s : string) : bool :=
  match s with
  | EmptyString => true
  | String a s' => p a && all_chars p s'
  end.

(* ================================================================== *)
(** ** The command [example_uris] *)
(* ================================================================== *)



(** *** More environments and calls for the examples *)

(** The factory does not know the scheme of the source. *)
Definition unknown_scheme : Env :=
  mkEnv (fun src dst => Raise (Error "ValueError"))
        (fun _ => Ok tt) (fun _ => Ok tt) (fun _ => Ok tt)
        (fun _ => true)
        (fun _ => Ok (mkRunInfo None 0))
        (fun _ => "a moment").

(** The user answers no. *)
Definition declining : Env :=
  mkEnv (fun src dst => Ok (mkFactory "postgres" "duckdb"))
        (fun _ => Ok tt) (fun _ => Ok tt) (fun _ => Ok tt)
        (fun _ => false)
        (fun _ => Ok (mkRunInfo None 0))
        (fun _ => "a moment").

(** The pipeline reports when it started and finished. *)
Definition timed : Env :=
  mkEnv (fun src dst => Ok (mkFactory "postgres" "duckdb"))
        (fun _ => Ok tt) (fun _ => Ok tt) (fun _ => Ok tt)
        (fun _ => true)
        (fun _ => Ok (mkRunInfo (Some 1000000%Z) 3500000%Z))
        (fun d => if (d =? 2500000)%Z then "2.50 seconds" else "some time").

(** [dlt.pipeline] cannot set the pipeline up. *)
Definition no_pipeline : Env :=
  mkEnv (fun src dst => Ok (mkFactory "postgres" "duckdb"))
        (fun _ => Ok tt) (fun _ => Raise (Error "PipelineConfigError")) (fun _ => Ok tt)
        (fun _ => true)
        (fun _ => Ok (mkRunInfo None 0))
        (fun _ => "a moment").

(** The destination table given as the empty string. *)
Definition call_empty_dest : Call :=
  mkCall "postgres://u:p@h/db" "duckdb://path/db" "orders" (Some EmptyString)
         None None None None None.

(** The line that announces the defaulting of the destination table. *)
Definition the_notice : string :=
  "[yellow]Destination table is not given, defaulting to the source table.[/yellow]".

(* ================================================================== *)
(** ** Properties *)
(* ================================================================== *)

(** *** The hash *)
Example sha256_abc :
  Sha256.hexdigest (Sha256.update Sha256.sha256 (encode_utf8 "abc"))
  = "ba7816bf8f01cfea414140de5dae2223b00361a396177a9cb410ff61f20015ad"%string.
Proof. vm_compute. reflexivity. Qed.

Example sha256_empty :
  Sha256.hexdigest Sha256.sha256
  = "e3b0c44298fc1c149afbf4c8996fb92427ae41e4649b934ca495991b7852b855"%string.
Proof. vm_compute. reflexivity. Qed.

Example sha256_two_blocks :
  Sha256.hexdigest
    (Sha256.update Sha256.sha256
       (encode_utf8 "abcdbcdecdefdefgefghfghighijhijkijkljklmklmnlmnomnopnopq"))
  = "248d6a61d20638b8e5c026930c3e6039a33ce45964ff2167f6ecedd419db06c1"%string.
Proof. vm_compute. reflexivity. Qed.

Example sha256_orders :
  Sha256.hexdigest (Sha256.update Sha256.sha256 (encode_utf8 "orders"))
  = "1c168adb00d208e42f93314529f1fa9c0427eb63233ceda95a5db52b7012a719"%string.
Proof. vm_compute. reflexivity. Qed.

Example sha256_pad_boundaries :
  map (fun n => Sha256.hexdigest (Sha256.update Sha256.sha256 (repeat 97%Z n)))
      [55%nat; 56%nat; 64%nat; 119%nat; 120%nat]
  = ["9f4390f8d30c2dd92ec9f095b65e2b9ae9b0a925a5258e241c9f1e910f734318";
     "b35439a4ac6f0948b6d6f9e3c6af0f5f590ce20f1bde7090ef7970686ec6738a";
     "ffe054fe7ae0cb6dc65c3af9b61d5209f439851db43d0ba5997337df154668eb";
     "31eba51c313a5c08226adf18d4a359cfdfd8d2e816b13f4af952f7ea6584dcfb";
     "2f3d335432c70b580af0e8e1b3674a7c020d683aa5f73aaaedfdc55af904c21c"]%string.
Proof. vm_compute. reflexivity. Qed.





(** *** What a run of [ingest] does *)

Lemma app_same_nil {A : Type} (l m : list A) : l = (l ++ m)%list -> m = [].
Proof.
  intro H. rewrite <- (app_nil_r l) in H at 1.
  apply app_inv_head in H. now symmetry.
Qed.

Lemma primary_key_passed (pk : option (list string)) :
  (if truthy_list pk && (0 <? len_opt pk)%Z then pk else None)
  = match pk with Some (x :: l) => Some (x :: l) | _ => None end.
Proof. destruct pk as [[|x l]|]; reflexivity. Qed.

(** *** Lines printed in turn *)

Lemma print_lines_accepted (env : Env) (ls co : list string) :
  Forall (fun l => console_print_result env l = Ok tt) ls ->
  print_lines env ls co = (Ok tt, (co ++ ls)%list).
Proof.
  intro H. revert co. induction H as [|l ls Hl _ IH]; intro co; cbn [print_lines].
  - now rewrite app_nil_r.
  - rewrite Hl, IH, <- app_assoc. reflexivity.
Qed.

Lemma print_lines_ok_inv (env : Env) (ls co co' : list string) (u : unit) :
  print_lines env ls co = (Ok u, co') ->
  Forall (fun l => console_print_result env l = Ok tt) ls /\ co' = (co ++ ls)%list.
Proof.
  revert co. induction ls as [|l ls IH]; intro co; cbn [print_lines].
  - intro H. injection H as _ <-. split; [constructor | now rewrite app_nil_r].
  - destruct (console_print_result env l) as [[]|e] eqn:E; [|discriminate].
    intro H. apply IH in H. destruct H as [H ->].
    split; [now constructor | now rewrite <- app_assoc].
Qed.

(** Whatever happens, the console gains some of the lines, and only those. *)
Lemma print_lines_some (env : Env) (ls co : list string) :
  exists ls', snd (print_lines env ls co) = (co ++ ls')%list /\ incl ls' ls.
Proof.
  revert co. induction ls as [|l ls IH]; intro co; cbn [print_lines].
  - exists []. split; [now rewrite app_nil_r | apply incl_refl].
  - destruct (console_print_result env l) as [u|e].
    + destruct (IH (co ++ [l])%list) as [ls' [H1 H2]].
      exists (l :: ls'). split.
      * rewrite H1, <- app_assoc. reflexivity.
      * intros x [<- | Hx]; [now left | right; now apply H2].
    + exists []. split; [now rewrite app_nil_r | intros x []].
Qed.

(** *** The course of a run *)

(** A run goes through the factory, the encoding of the table name,
    [dlt_dest], [dlt.pipeline], the summary, the prompt, the
    [pipeline.run] statement and the closing lines, and stops at the
    first of them that raises. *)
Ltac run_step :=
  match goal with
  | |- context [SourceDestinationFactory ?e ?a ?b] =>
      destruct (SourceDestinationFactory e a b)
  | |- context [has_surrogate ?t] => destruct (has_surrogate t)
  | |- context [dlt_dest_result ?e ?a] => destruct (dlt_dest_result e a)
  | |- context [dlt_pipeline_result ?e ?a] => destruct (dlt_pipeline_result e a)
  | |- context [console_print_result ?e ?l] => destruct (console_print_result e l)
  | |- context [confirm_answer ?e ?p] => destruct (confirm_answer e p)
  | |- context [pipeline_run_result ?e ?r] => destruct (pipeline_run_result e r)
  end;
  cbn [negb fst snd console engine_calls].

Ltac same_world :=
  repeat rewrite <- app_assoc; cbn [app]; repeat rewrite app_nil_r; reflexivity.

Lemma ingest_outcome (env : Env) (c : Call) (w : World) :
  ingest env c w
  = let co0 := (console w ++ defaulting_notice c)%list in
    match SourceDestinationFactory env (source_uri c) (dest_uri c) with
    | Raise e => (Raise e, mkWorld co0 (engine_calls w))
    | Ok f =>
    if has_surrogate (dest_table_used c)
    then (Raise (Error "UnicodeEncodeError"), mkWorld co0 (engine_calls w))
    else
    match dlt_dest_result env (dest_uri c) with
    | Raise e => (Raise e, mkWorld co0 (engine_calls w))
    | Ok _ =>
    match dlt_pipeline_result env (run_pipeline (call_made c)) with
    | Raise e => (Raise e, mkWorld co0 (engine_calls w))
    | Ok _ =>
    match print_lines env (interpolated_lines f c)
            (co0 ++ [EmptyString;
                     "[bold green]Initiated the pipeline with the following:[/bold green]"])%list
    with
    | (Raise e, co) => (Raise e, mkWorld co (engine_calls w))
    | (Ok _, co) =>
    if confirm_answer env the_prompt then
      match pipeline_run_result env (call_made c) with
      | Raise e =>
          (Raise e,
           mkWorld (co ++ [EmptyString] ++ starting_lines)%list
                   (engine_calls w ++ [call_made c])%list)
      | Ok info =>
          match console_print_result env (success_line env f info) with
          | Raise e =>
              (Raise e,
               mkWorld (co ++ [EmptyString] ++ starting_lines ++ [EmptyString])%list
                       (engine_calls w ++ [call_made c])%list)
          | Ok _ =>
              (Ok tt,
               mkWorld (co ++ [EmptyString] ++ starting_lines
                           ++ success_lines env f info)%list
                       (engine_calls w ++ [call_made c])%list)
          end
      end
    else (Raise Abort, mkWorld (co ++ [EmptyString])%list (engine_calls w))
    end end end end.
Proof.
  destruct w as [co0 ca0].
  unfold defaulting_notice, interpolated_lines, starting_lines, success_lines,
    success_line, elapsed_text.
  unfold ingest, call_made, merge_key_used, write_disposition_used,
    dest_table_used, strategy_given, derive, the_prompt, encode.
  rewrite primary_key_passed.
  unfold bind, ret, raise, print, print_markup, new_factory, typer_confirm,
    pipeline_run, dlt_dest, dlt_pipeline, lift.
  cbn [run_pipeline print_lines].
  destruct (truthy_str (dest_table c));
    destruct (String.eqb (or_default (incremental_strategy c) "replace") "delete+insert");
    cbn [negb fst snd console engine_calls];
    repeat (first [same_world | run_step]).
Qed.

Lemma ingest_reaches (env : Env) (c : Call) (w : World) :
  reaches_pipeline env c -> runs w (ingest env c w) [call_made c].
Proof.
  intros [[f [Hf Hl]] [Hs [Hd [Hp Hc]]]]. unfold runs.
  rewrite ingest_outcome. cbv zeta.
  rewrite Hf, Hs, Hd, Hp, (print_lines_accepted env _ _ Hl), Hc.
  destruct (pipeline_run_result env (call_made c)) as [info|e]; [|reflexivity].
  destruct (console_print_result env (success_line env f info)); reflexivity.
Qed.

Lemma ingest_run_call (env : Env) (c : Call) (w : World) (rc : RunCall) :
  runs w (ingest env c w) [rc] -> rc = call_made c /\ reaches_pipeline env c.
Proof.
  unfold runs, reaches_pipeline. rewrite ingest_outcome. cbv zeta.
  destruct (SourceDestinationFactory env (source_uri c) (dest_uri c)) as [f|e];
    [|intro H; apply app_same_nil in H; discriminate].
  destruct (has_surrogate (dest_table_used c));
    [intro H; apply app_same_nil in H; discriminate|].
  destruct (dlt_dest_result env (dest_uri c)) as [[]|e];
    [|intro H; apply app_same_nil in H; discriminate].
  destruct (dlt_pipeline_result env (run_pipeline (call_made c))) as [[]|e];
    [|intro H; apply app_same_nil in H; discriminate].
  destruct (print_lines env (interpolated_lines f c) _) as [[u|e] co] eqn:El;
    [|intro H; apply app_same_nil in H; discriminate].
  apply print_lines_ok_inv in El. destruct El as [Hl _].
  destruct (confirm_answer env the_prompt);
    [|intro H; apply app_same_nil in H; discriminate].
  assert (Hcalls : forall r wd,
             engine_calls (snd (r : result unit,
                                mkWorld wd (engine_calls w ++ [call_made c])%list))
             = (engine_calls w ++ [rc])%list -> rc = call_made c).
  { intros r wd H. cbn in H. apply app_inv_head in H. now injection H. }
  intro H. split.
  - destruct (pipeline_run_result env (call_made c)) as [info|e];
      [destruct (console_print_result env (success_line env f info))|];
      eapply Hcalls; exact H.
  - repeat split. exists f. now split.
Qed.

(** The calls a run adds: none, or the one of [call_made]. *)
Lemma ingest_calls (env : Env) (c : Call) (w : World) :
  runs w (ingest env c w) [] \/ runs w (ingest env c w) [call_made c].
Proof.
  unfold runs. rewrite ingest_outcome. cbv zeta.
  destruct (SourceDestinationFactory env (source_uri c) (dest_uri c)) as [f|e];
    [|left; cbn; now rewrite app_nil_r].
  destruct (has_surrogate (dest_table_used c)); [left; cbn; now rewrite app_nil_r|].
  destruct (dlt_dest_result env (dest_uri c)) as [[]|e];
    [|left; cbn; now rewrite app_nil_r].
  destruct (dlt_pipeline_result env (run_pipeline (call_made c))) as [[]|e];
    [|left; cbn; now rewrite app_nil_r].
  destruct (print_lines env (interpolated_lines f c) _) as [[u|e] co];
    [|left; cbn; now rewrite app_nil_r].
  destruct (confirm_answer env the_prompt); [|left; cbn; now rewrite app_nil_r].
  right.
  destruct (pipeline_run_result env (call_made c)) as [info|e];
    [destruct (console_print_result env (success_line env f info))|];
    reflexivity.
Qed.

(** In [agreeable] every call with a table name that can be encoded gets
    to the pipeline. *)
Lemma agreeable_reaches (c : Call) :
  has_surrogate (dest_table_used c) = false -> reaches_pipeline agreeable c.
Proof.
  intro H. split; [|repeat split; exact H].
  exists (mkFactory "postgres" "duckdb"). split; [reflexivity|].
  unfold interpolated_lines. repeat constructor.
Qed.

Lemma resolve_reaches (env : Env) (c : Call) :
  reaches_pipeline env c -> resolve env c = Some (plan_of_run (call_made c)).
Proof.
  intro H. apply (ingest_reaches env c empty_world) in H.
  unfold runs in H. unfold resolve. rewrite H. reflexivity.
Qed.

Lemma resolve_inv (env : Env) (c : Call) (p : LoadPlan) :
  resolve env c = Some p ->
  reaches_pipeline env c /\ p = plan_of_run (call_made c).
Proof.
  unfold resolve. intro H.
  destruct (engine_calls (snd (ingest env c empty_world))) as [|rc [|rc' l]] eqn:E;
    try discriminate.
  injection H as <-.
  destruct (ingest_run_call env c empty_world rc) as [-> Hr]; [exact E|].
  now split.
Qed.

(** *** The strategy step *)

(** C1. With the strategy [delete+insert], the plan handed to the
    pipeline has write disposition [merge] and its merge key is the
    incremental key of the call, whatever that key is; and the
    [pipeline.run] statement is reached whenever everything on the way
    to it goes well and the user agrees. *)
Theorem delete_insert_is_merge_on_incremental_key
    (env : Env) (c : Call) (w : World) :
  strategy_given c = "delete+insert" ->
  (forall rc, runs w (ingest env c w) [rc] ->
     lp_write_disposition (plan_of_run rc) = "merge"
     /\ lp_merge_key (plan_of_run rc) = incremental_key c)
  /\ (reaches_pipeline env c -> exists rc, runs w (ingest env c w) [rc]).
Proof.
  intro Hs. split.
  - intros rc Hr. apply ingest_run_call in Hr. destruct Hr as [-> _].
    cbn. unfold write_disposition_used, merge_key_used.
    rewrite Hs. split; reflexivity.
  - intro Hp. exists (call_made c). now apply ingest_reaches.
Qed.

Lemma delete_insert_id_witness :
  strategy_given call_delete_insert_id = "delete+insert"
  /\ (forall rc,
        runs empty_world (ingest agreeable call_delete_insert_id empty_world) [rc] ->
        lp_write_disposition (plan_of_run rc) = "merge"
        /\ lp_merge_key (plan_of_run rc) = Some "id")
  /\ (reaches_pipeline agreeable call_delete_insert_id ->
      exists rc,
        runs empty_world (ingest agreeable call_delete_insert_id empty_world) [rc]).
Proof.
  split; [reflexivity|].
  exact (delete_insert_is_merge_on_incremental_key
           agreeable call_delete_insert_id empty_world eq_refl).
Defined.

(** The scenario of the spec, computed. *)
Example scenario_delete_insert_id :
  resolve agreeable call_delete_insert_id
  = Some (mkLoadPlan "merge" (Some "id") (Some "id") None None None).
Proof. vm_compute. reflexivity. Qed.

(** C10. The merge key handed to the source is the incremental key when
    the strategy given is [delete+insert] (absent when that key is
    absent), and is absent for every other strategy, in particular for
    [replace], [append] and [merge]. *)
Theorem merge_key_only_from_delete_insert
    (env : Env) (c : Call) (w : World) (rc : RunCall) :
  runs w (ingest env c w) [rc] ->
  (strategy_given c = "delete+insert" ->
     ds_merge_key (run_source rc) = incremental_key c)
  /\ (strategy_given c <> "delete+insert" -> ds_merge_key (run_source rc) = None)
  /\ (In (strategy_given c) ["replace"; "append"; "merge"] ->
      ds_merge_key (run_source rc) = None)
  /\ (ds_merge_key (run_source rc) <> None -> strategy_given c = "delete+insert").
Proof.
  intro Hr. apply ingest_run_call in Hr. destruct Hr as [-> _].
  cbn [call_made run_source ds_merge_key]. unfold merge_key_used.
  destruct (String.eqb (strategy_given c) "delete+insert") eqn:E.
  - apply String.eqb_eq in E. repeat split.
    + intro H. contradiction.
    + rewrite E. cbn. intros [H | [H | [H | []]]]; discriminate.
    + intros _. exact E.
  - apply String.eqb_neq in E. repeat split.
    + intro H. contradiction.
    + intro H. contradiction.
Qed.

Lemma merge_key_witness :
  runs empty_world (ingest agreeable call_merge_two_keys empty_world)
       [call_made call_merge_two_keys]
  /\ ds_merge_key (run_source (call_made call_merge_two_keys)) = None.
Proof.
  split.
  - vm_compute. reflexivity.
  - apply (merge_key_only_from_delete_insert
             agreeable call_merge_two_keys empty_world
             (call_made call_merge_two_keys)).
    + vm_compute. reflexivity.
    + right. right. left. reflexivity.
Defined.

(** *** Defaults *)



(** The first lines printed when the destination table is defaulted. *)
Example scenario_defaulting_is_announced :
  firstn 2 (console (snd (ingest agreeable call_orders empty_world)))
  = [EmptyString;
     "[yellow]Destination table is not given, defaulting to the source table.[/yellow]"].
Proof. vm_compute. reflexivity. Qed.



(** The scenario of the spec with two primary keys and no merge key. *)
Example scenario_merge_two_keys :
  resolve agreeable call_merge_two_keys
  = Some (mkLoadPlan "merge" None None None None (Some ["id"; "region"])).
Proof. vm_compute. reflexivity. Qed.

(** *** The pipeline name *)

(** **** Two names, one pipeline name *)
































(** Two table names with two names of pipeline. *)
Example distinct_tables_distinct_names : derive "orders" <> derive "customers".
Proof. vm_compute. discriminate. Qed.

(** *** What [ingest] does not check *)

(** A run that is seen to end normally was not rejected. *)
Ltac not_rejected :=
  let H := fresh "H" in intros [H _]; vm_compute in H; discriminate H.

(** C2, as the code has it.  A merge without any key is not refused:
    the run gets to the [pipeline.run] statement whenever everything on
    the way goes well and the user agrees, and the statement is given
    the write disposition [merge], the merge key as it stands and no
    primary key. *)
Theorem merge_without_key_is_forwarded (env : Env) (c : Call) (w : World) :
  write_disposition_used c = "merge" ->
  truthy_str (merge_key_used c) = false ->
  truthy_list (primary_key c) = false ->
  (forall rc, runs w (ingest env c w) [rc] ->
     lp_write_disposition (plan_of_run rc) = "merge"
     /\ lp_merge_key (plan_of_run rc) = merge_key_used c
     /\ lp_primary_key (plan_of_run rc) = None)
  /\ (reaches_pipeline env c -> exists rc, runs w (ingest env c w) [rc]).
Proof.
  intros Hw _ Hp. split.
  - intros rc Hr. apply ingest_run_call in Hr. destruct Hr as [-> _].
    unfold plan_of_run.
    cbn [call_made write_disposition run_source ds_merge_key run_primary_key
         lp_write_disposition lp_merge_key lp_primary_key].
    rewrite Hw. repeat split.
    destruct (primary_key c) as [[|x l]|]; [reflexivity | discriminate | reflexivity].
  - intro Hr. exists (call_made c). now apply ingest_reaches.
Qed.

Lemma merge_without_key_witness :
  write_disposition_used call_merge_no_keys = "merge"
  /\ runs empty_world (ingest agreeable call_merge_no_keys empty_world)
          [call_made call_merge_no_keys]
  /\ lp_write_disposition (plan_of_run (call_made call_merge_no_keys)) = "merge"
  /\ lp_merge_key (plan_of_run (call_made call_merge_no_keys)) = None
  /\ lp_primary_key (plan_of_run (call_made call_merge_no_keys)) = None.
Proof.
  split; [reflexivity|]. split; [vm_compute; reflexivity|].
  apply (proj1 (merge_without_key_is_forwarded
                  agreeable call_merge_no_keys empty_world
                  eq_refl eq_refl eq_refl)
               (call_made call_merge_no_keys)).
  vm_compute. reflexivity.
Defined.

(** C2 fails as stated: the strategy [merge] without an incremental key
    or a primary key is not rejected, with [MissingMergeKey] or anything
    else; the pipeline is run with a merge plan that has no key. *)
Lemma merge_without_key_not_rejected :
  write_disposition_used call_merge_no_keys = "merge"
  /\ truthy_str (merge_key_used call_merge_no_keys) = false
  /\ truthy_list (primary_key call_merge_no_keys) = false
  /\ ~ rejected_with empty_world
         (ingest agreeable call_merge_no_keys empty_world)
         (Error "MissingMergeKey")
  /\ fst (ingest agreeable call_merge_no_keys empty_world) = Ok tt
  /\ map plan_of_run
         (engine_calls (snd (ingest agreeable call_merge_no_keys empty_world)))
     = [mkLoadPlan "merge" None None None None None].
Proof.
  repeat (split; [first [not_rejected | vm_compute; reflexivity]|]).
  vm_compute. reflexivity.
Qed.

(** C3, as the code has it.  The two bounds are not compared: with an
    end that precedes the start, the run still gets to the
    [pipeline.run] statement whenever everything on the way goes well
    and the user agrees, and the source is given both bounds unchanged. *)
Theorem reversed_interval_is_forwarded
    (env : Env) (c : Call) (w : World) (i_start i_end : datetime) :
  interval_start c = Some i_start ->
  interval_end c = Some i_end ->
  well_formed i_start = true ->
  well_formed i_end = true ->
  precedes i_end i_start = true ->
  (forall rc, runs w (ingest env c w) [rc] ->
     lp_interval_start (plan_of_run rc) = Some i_start
     /\ lp_interval_end (plan_of_run rc) = Some i_end)
  /\ (reaches_pipeline env c -> exists rc, runs w (ingest env c w) [rc]).
Proof.
  intros Hs He _ _ _. split.
  - intros rc Hr. apply ingest_run_call in Hr. destruct Hr as [-> _].
    unfold plan_of_run.
    cbn [call_made run_source ds_interval_start ds_interval_end
         lp_interval_start lp_interval_end].
    now rewrite Hs, He.
  - intro Hr. exists (call_made c). now apply ingest_reaches.
Qed.

Lemma reversed_interval_witness :
  precedes (date 2024 1 1) (date 2024 1 2) = true
  /\ runs empty_world (ingest agreeable call_end_before_start empty_world)
          [call_made call_end_before_start]
  /\ lp_interval_start (plan_of_run (call_made call_end_before_start))
     = Some (date 2024 1 2)
  /\ lp_interval_end (plan_of_run (call_made call_end_before_start))
     = Some (date 2024 1 1).
Proof.
  split; [reflexivity|]. split; [vm_compute; reflexivity|].
  apply (proj1 (reversed_interval_is_forwarded
                  agreeable call_end_before_start empty_world
                  (date 2024 1 2) (date 2024 1 1)
                  eq_refl eq_refl eq_refl eq_refl eq_refl)
               (call_made call_end_before_start)).
  vm_compute. reflexivity.
Defined.

(** C3 fails as stated: an interval that ends on 2024-01-01 and starts
    on 2024-01-02 is not rejected; the pipeline is run with both bounds. *)
Lemma reversed_interval_not_rejected :
  interval_start call_end_before_start = Some (date 2024 1 2)
  /\ interval_end call_end_before_start = Some (date 2024 1 1)
  /\ well_formed (date 2024 1 2) = true
  /\ well_formed (date 2024 1 1) = true
  /\ precedes (date 2024 1 1) (date 2024 1 2) = true
  /\ ~ rejected_with empty_world
         (ingest agreeable call_end_before_start empty_world)
         (Error "InvalidInterval")
  /\ fst (ingest agreeable call_end_before_start empty_world) = Ok tt
  /\ map plan_of_run
         (engine_calls (snd (ingest agreeable call_end_before_start empty_world)))
     = [mkLoadPlan "append" (Some "updated_at") None
                   (Some (date 2024 1 2)) (Some (date 2024 1 1)) None].
Proof.
  repeat (split; [first [not_rejected | vm_compute; reflexivity]|]).
  vm_compute. reflexivity.
Qed.

(** C4, as the code has it.  Bounds given without an incremental key
    are neither refused nor dropped: the run gets to the [pipeline.run]
    statement whenever everything on the way goes well and the user
    agrees, and the source is given the bounds as they are together
    with the absent (or empty) key. *)
Theorem bounds_without_key_are_forwarded (env : Env) (c : Call) (w : World) :
  truthy_str (incremental_key c) = false ->
  interval_start c <> None \/ interval_end c <> None ->
  (forall rc, runs w (ingest env c w) [rc] ->
     lp_incremental_key (plan_of_run rc) = incremental_key c
     /\ lp_interval_start (plan_of_run rc) = interval_start c
     /\ lp_interval_end (plan_of_run rc) = interval_end c)
  /\ (reaches_pipeline env c -> exists rc, runs w (ingest env c w) [rc]).
Proof.
  intros _ _. split.
  - intros rc Hr. apply ingest_run_call in Hr. destruct Hr as [-> _].
    unfold plan_of_run.
    cbn [call_made run_source ds_incremental_key ds_interval_start
         ds_interval_end lp_incremental_key lp_interval_start lp_interval_end].
    repeat split.
  - intro Hr. exists (call_made c). now apply ingest_reaches.
Qed.

Lemma bounds_without_key_witness :
  truthy_str (incremental_key call_bounds_no_key) = false
  /\ runs empty_world (ingest agreeable call_bounds_no_key empty_world)
          [call_made call_bounds_no_key]
  /\ lp_incremental_key (plan_of_run (call_made call_bounds_no_key)) = None
  /\ lp_interval_start (plan_of_run (call_made call_bounds_no_key))
     = Some (date 2024 1 1)
  /\ lp_interval_end (plan_of_run (call_made call_bounds_no_key)) = None.
Proof.
  split; [reflexivity|]. split; [vm_compute; reflexivity|].
  apply (proj1 (bounds_without_key_are_forwarded
                  agreeable call_bounds_no_key empty_world
                  eq_refl (or_introl (fun H => eq_ind (Some (date 2024 1 1))
                     (fun o => match o with Some _ => True | None => False end)
                     I None H)))
               (call_made call_bounds_no_key)).
  vm_compute. reflexivity.
Defined.

(** C4 fails as stated: a start bound given without an incremental key
    is not rejected; the pipeline is run and the source receives it. *)
Lemma bounds_without_key_not_rejected :
  truthy_str (incremental_key call_bounds_no_key) = false
  /\ interval_start call_bounds_no_key = Some (date 2024 1 1)
  /\ ~ rejected_with empty_world
         (ingest agreeable call_bounds_no_key empty_world)
         (Error "DanglingIntervalBound")
  /\ fst (ingest agreeable call_bounds_no_key empty_world) = Ok tt
  /\ map plan_of_run
         (engine_calls (snd (ingest agreeable call_bounds_no_key empty_world)))
     = [mkLoadPlan "replace" None None (Some (date 2024 1 1)) None None].
Proof.
  repeat (split; [first [not_rejected | vm_compute; reflexivity]|]).
  vm_compute. reflexivity.
Qed.

(** C5, the code at the input [upsert].  The help text of the option
    says that the strategy must be one of [replace], [append],
    [delete+insert] and [merge]; [upsert] is none of them, and yet the
    run is not rejected, with [UnsupportedStrategy] or anything else: it
    ends normally where nothing else fails, and the [pipeline.run]
    statement is given [upsert] as its write disposition. *)
Lemma unknown_strategy_not_rejected :
  known_strategy (strategy_given call_upsert) = false
  /\ ~ rejected_with empty_world
         (ingest agreeable call_upsert empty_world)
         (Error "UnsupportedStrategy")
  /\ fst (ingest agreeable call_upsert empty_world) = Ok tt
  /\ map write_disposition
         (engine_calls (snd (ingest agreeable call_upsert empty_world)))
     = ["upsert"].
Proof.
  repeat (split; [first [not_rejected | vm_compute; reflexivity]|]).
  vm_compute. reflexivity.
Qed.

(** *** Resolving twice *)

(** The write disposition, fed back as strategy, is kept, and the way
    to the pipeline is the same. *)
Lemma write_disposition_again (c : Call) :
  write_disposition_used (with_strategy c (write_disposition_used c))
  = write_disposition_used c.
Proof.
  unfold write_disposition_used, strategy_given. cbn.
  destruct (String.eqb (or_default (incremental_strategy c) "replace")
                       "delete+insert") eqn:E; cbn; [reflexivity|].
  rewrite E. reflexivity.
Qed.

Lemma with_strategy_reaches (env : Env) (c : Call) :
  reaches_pipeline env c ->
  reaches_pipeline env (with_strategy c (write_disposition_used c)).
Proof.
  unfold reaches_pipeline, interpolated_lines.
  rewrite write_disposition_again. intro H. exact H.
Qed.

(** C9, as the code has it.  Resolving again with the plan's write
    disposition as strategy name and the same keys gives a plan with the
    same write disposition and the same keys and bounds, and no merge
    key.  It is the same plan unless the first strategy was
    [delete+insert] with an incremental key; in particular it is the
    same plan for [replace], [append] and [merge]. *)
Theorem resolve_again (env : Env) (c : Call) (p : LoadPlan) :
  resolve env c = Some p ->
  exists p',
    resolve env (with_strategy c (lp_write_disposition p)) = Some p'
    /\ p' = mkLoadPlan (lp_write_disposition p) (lp_incremental_key p) None
                       (lp_interval_start p) (lp_interval_end p)
                       (lp_primary_key p)
    /\ (strategy_given c <> "delete+insert" \/ incremental_key c = None -> p' = p)
    /\ (In (strategy_given c) ["replace"; "append"; "merge"] -> p' = p).
Proof.
  intro H. apply resolve_inv in H. destruct H as [Hr ->].
  exists (plan_of_run (call_made (with_strategy c (write_disposition_used c)))).
  assert (Hw : write_disposition_used (with_strategy c (write_disposition_used c))
               = write_disposition_used c).
  { unfold write_disposition_used, strategy_given. cbn.
    destruct (String.eqb (or_default (incremental_strategy c) "replace")
                         "delete+insert") eqn:E; cbn; [reflexivity|].
    rewrite E. reflexivity. }
  assert (Hm : merge_key_used (with_strategy c (write_disposition_used c)) = None).
  { unfold merge_key_used, write_disposition_used, strategy_given. cbn.
    destruct (String.eqb (or_default (incremental_strategy c) "replace")
                         "delete+insert") eqn:E; cbn; [reflexivity|].
    rewrite E. reflexivity. }
  assert (Hp : plan_of_run (call_made (with_strategy c (write_disposition_used c)))
               = mkLoadPlan (write_disposition_used c) (incremental_key c) None
                            (interval_start c) (interval_end c)
                            (lp_primary_key (plan_of_run (call_made c)))).
  { unfold plan_of_run. cbn [call_made write_disposition run_source run_primary_key
                             ds_incremental_key ds_merge_key ds_interval_start
                             ds_interval_end lp_primary_key].
    rewrite Hw, Hm. reflexivity. }
  assert (Hsame : strategy_given c <> "delete+insert" \/ incremental_key c = None ->
                  plan_of_run (call_made (with_strategy c (write_disposition_used c)))
                  = plan_of_run (call_made c)).
  { intro Hc. rewrite Hp. unfold plan_of_run at 2.
    cbn [call_made write_disposition run_source run_primary_key
         ds_incremental_key ds_merge_key ds_interval_start ds_interval_end
         lp_primary_key plan_of_run].
    f_equal. unfold merge_key_used.
    destruct (String.eqb (strategy_given c) "delete+insert") eqn:E; [|reflexivity].
    apply String.eqb_eq in E. destruct Hc as [Hc | Hc]; [contradiction | now symmetry]. }
  split; [|split; [|split]].
  - apply (resolve_reaches env (with_strategy c _)), with_strategy_reaches, Hr.
  - exact Hp.
  - exact Hsame.
  - intro Hin. apply Hsame. left. intro E. rewrite E in Hin.
    cbn in Hin. destruct Hin as [H | [H | [H | []]]]; discriminate.
Qed.

Lemma resolve_again_witness :
  resolve agreeable call_merge_two_keys
  = Some (mkLoadPlan "merge" None None None None (Some ["id"; "region"]))
  /\ exists p',
       resolve agreeable (with_strategy call_merge_two_keys "merge") = Some p'
       /\ p' = mkLoadPlan "merge" None None None None (Some ["id"; "region"]).
Proof.
  split; [vm_compute; reflexivity|].
  destruct (resolve_again agreeable call_merge_two_keys
              (mkLoadPlan "merge" None None None None (Some ["id"; "region"])))
    as [p' [H1 [H2 _]]].
  - vm_compute. reflexivity.
  - exists p'. split; [exact H1 | exact H2].
Defined.

(** C9 fails as stated: [delete+insert] on the key [id] resolves to a
    merge on [id], and resolving again with [merge] as strategy and the
    same keys gives a merge without merge key. *)
Lemma resolve_again_loses_merge_key :
  resolve agreeable call_delete_insert_id
  = Some (mkLoadPlan "merge" (Some "id") (Some "id") None None None)
  /\ resolve agreeable (with_strategy call_delete_insert_id "merge")
     = Some (mkLoadPlan "merge" (Some "id") None None None None)
  /\ resolve agreeable (with_strategy call_delete_insert_id "merge")
     <> resolve agreeable call_delete_insert_id.
Proof.
  split; [vm_compute; reflexivity|]. split; [vm_compute; reflexivity|].
  vm_compute. discriminate.
Qed.

(* ================================================================== *)
(** ** Further properties of [ingest] and [example_uris] *)
(* ================================================================== *)

(** *** What is printed *)

(** Two lists of lines built by appending are compared once they are
    associated to the right. *)
Ltac now_lines :=
  repeat rewrite <- app_assoc; cbn [app]; repeat rewrite app_nil_r; reflexivity.

(** The console of a run that gets to the [pipeline.run] statement: the
    notice, the whole summary, the starting lines, and the closing lines
    when the statement returns. *)
Lemma ingest_console_reached (env : Env) (c : Call) (w : World) (f : Factory) :
  SourceDestinationFactory env (source_uri c) (dest_uri c) = Ok f ->
  reaches_pipeline env c ->
  console (snd (ingest env c w))
  = (console w ++ defaulting_notice c ++ summary_lines f c ++ starting_lines ++
     match pipeline_run_result env (call_made c) with
     | Raise _ => []
     | Ok info =>
         match console_print_result env (success_line env f info) with
         | Raise _ => [EmptyString]
         | Ok _ => success_lines env f info
         end
     end)%list.
Proof.
  intros Hf [[f' [Hf' Hl]] [Hs [Hd [Hp Hc]]]].
  rewrite Hf in Hf'. injection Hf' as <-.
  rewrite ingest_outcome. cbv zeta.
  rewrite Hf, Hs, Hd, Hp, (print_lines_accepted env _ _ Hl), Hc.
  unfold summary_lines, success_lines.
  destruct (pipeline_run_result env (call_made c)) as [info|e];
    [destruct (console_print_result env (success_line env f info))|];
    cbn [snd console]; now_lines.
Qed.

(** The lines a run adds after the notice: none of them is the notice,
    and none of them is the line of the start when the user declines. *)
Lemma ingest_console_lines (env : Env) (c : Call) (w : World) :
  exists l,
    console (snd (ingest env c w)) = (console w ++ defaulting_notice c ++ l)%list
    /\ ~ In the_notice l
    /\ (confirm_answer env the_prompt = false ->
        ~ In "[bold green]Starting the ingestion...[/bold green]" l).
Proof.
  rewrite ingest_outcome. cbv zeta.
  assert (Hnil : exists l,
             (console w ++ defaulting_notice c)%list
             = (console w ++ defaulting_notice c ++ l)%list
             /\ ~ In the_notice l
             /\ (confirm_answer env the_prompt = false ->
                 ~ In "[bold green]Starting the ingestion...[/bold green]" l)).
  { exists []. split; [now rewrite app_nil_r | split; [intros [] | intros _ []]]. }
  destruct (SourceDestinationFactory env (source_uri c) (dest_uri c)) as [f|e];
    [|exact Hnil].
  destruct (has_surrogate (dest_table_used c)); [exact Hnil|].
  destruct (dlt_dest_result env (dest_uri c)) as [[]|e]; [|exact Hnil].
  destruct (dlt_pipeline_result env (run_pipeline (call_made c))) as [[]|e];
    [|exact Hnil].
  clear Hnil.
  match goal with
  | |- context [print_lines env ?ls ?co] =>
      destruct (print_lines_some env ls co) as [ls' [Hco Hin]];
      destruct (print_lines env ls co) as [r co'] eqn:El
  end.
  cbn [snd] in Hco. subst co'.
  assert (Hls : forall x, In x ls' ->
                  x <> the_notice
                  /\ x <> "[bold green]Starting the ingestion...[/bold green]").
  { intros x Hx. apply Hin in Hx. unfold interpolated_lines in Hx.
    cbn [In] in Hx.
    destruct Hx as [<- | [<- | [<- | [<- | []]]]]; split; discriminate. }
  assert (Hmid : forall tail,
             ~ In the_notice tail ->
             ~ In the_notice
                 ([EmptyString;
                   "[bold green]Initiated the pipeline with the following:[/bold green]"]
                    ++ ls' ++ tail)%list).
  { intros tail Ht Hx. cbn [app In] in Hx.
    destruct Hx as [Hx | [Hx | Hx]]; try discriminate Hx.
    apply in_app_or in Hx. destruct Hx as [Hx | Hx]; [|now apply Ht].
    now apply (proj1 (Hls _ Hx)). }
  pose (head := [EmptyString;
                 "[bold green]Initiated the pipeline with the following:[/bold green]"]).
  fold head in Hmid.
  destruct r as [u|e].
  - destruct (confirm_answer env the_prompt).
    + destruct (pipeline_run_result env (call_made c)) as [info|e];
        [destruct (console_print_result env (success_line env f info))|].
      * exists (head ++ ls' ++ [EmptyString] ++ starting_lines
                  ++ success_lines env f info)%list.
        split; [cbn [snd console]; unfold head; now_lines|].
        split; [|discriminate].
        apply Hmid. unfold starting_lines, success_lines, success_line.
        cbn [app In]. intros [H | [H | [H | [H | [H | [H | []]]]]]];
          discriminate H.
      * exists (head ++ ls' ++ [EmptyString] ++ starting_lines ++ [EmptyString])%list.
        split; [cbn [snd console]; unfold head; now_lines|].
        split; [|discriminate].
        apply Hmid. unfold starting_lines.
        cbn [app In]. intros [H | [H | [H | [H | [H | []]]]]]; discriminate H.
      * exists (head ++ ls' ++ [EmptyString] ++ starting_lines)%list.
        split; [cbn [snd console]; unfold head; now_lines|].
        split; [|discriminate].
        apply Hmid. unfold starting_lines.
        cbn [app In]. intros [H | [H | [H | [H | []]]]]; discriminate H.
    + exists (head ++ ls' ++ [EmptyString])%list.
      split; [cbn [snd console]; unfold head; now_lines|]. split.
      * apply Hmid. intros [H | []]. discriminate H.
      * intros _ Hx. unfold head in Hx. cbn [app In] in Hx.
        destruct Hx as [Hx | [Hx | Hx]]; try discriminate Hx.
        apply in_app_or in Hx. destruct Hx as [Hx | [Hx | []]];
          [now apply (proj2 (Hls _ Hx)) | discriminate Hx].
  - exists (head ++ ls' ++ [])%list.
    split; [cbn [snd console]; unfold head; now_lines|]. split.
    + apply Hmid. intros [].
    + intros _ Hx. unfold head in Hx. cbn [app In] in Hx.
      destruct Hx as [Hx | [Hx | Hx]]; try discriminate Hx.
      rewrite app_nil_r in Hx. now apply (proj2 (Hls _ Hx)).
Qed.

(** *** How a run ends *)

(** X1. [ingest] returns normally only after everything went well: the
    factory accepted the URIs, the user agreed, the [pipeline.run]
    statement was begun with the call [call_made] and it returned. *)
Theorem ingest_succeeds_only_if (env : Env) (c : Call) (w : World) :
  fst (ingest env c w) = Ok tt ->
  reaches_pipeline env c
  /\ runs w (ingest env c w) [call_made c]
  /\ exists info, pipeline_run_result env (call_made c) = Ok info.
Proof.
  intro H.
  assert (Hr : runs w (ingest env c w) [call_made c]
               /\ exists info, pipeline_run_result env (call_made c) = Ok info).
  { revert H. unfold runs. rewrite ingest_outcome. cbv zeta.
    destruct (SourceDestinationFactory env (source_uri c) (dest_uri c)) as [f|e];
      [|discriminate].
    destruct (has_surrogate (dest_table_used c)); [discriminate|].
    destruct (dlt_dest_result env (dest_uri c)) as [[]|e]; [|discriminate].
    destruct (dlt_pipeline_result env (run_pipeline (call_made c))) as [[]|e];
      [|discriminate].
    destruct (print_lines env (interpolated_lines f c) _) as [[u|e] co];
      [|discriminate].
    destruct (confirm_answer env the_prompt); [|discriminate].
    destruct (pipeline_run_result env (call_made c)) as [info|e]; [|discriminate].
    destruct (console_print_result env (success_line env f info)); [|discriminate].
    intros _. split; [reflexivity | now exists info]. }
  destruct Hr as [Hr Hi]. split; [|now split].
  now apply (ingest_run_call env c w (call_made c)).
Qed.

Lemma ingest_succeeds_witness :
  fst (ingest agreeable call_orders empty_world) = Ok tt
  /\ reaches_pipeline agreeable call_orders
  /\ runs empty_world (ingest agreeable call_orders empty_world)
          [call_made call_orders]
  /\ exists info, pipeline_run_result agreeable (call_made call_orders) = Ok info.
Proof.
  split; [vm_compute; reflexivity|].
  apply (ingest_succeeds_only_if agreeable call_orders empty_world).
  vm_compute. reflexivity.
Defined.

(** X3. A run begins the [pipeline.run] statement at most once, with the
    call [call_made], and only after the factory, the encoding of the
    table name, [dlt_dest], [dlt.pipeline] and the summary went well and
    the user agreed to continue. *)
Theorem pipeline_run_only_when_reached
    (env : Env) (c : Call) (w : World) (l : list RunCall) :
  runs w (ingest env c w) l ->
  l = [] \/ (l = [call_made c] /\ reaches_pipeline env c).
Proof.
  intro Hl. destruct (ingest_calls env c w) as [H | H].
  - left. unfold runs in *. rewrite H in Hl. apply app_inv_head in Hl.
    now symmetry.
  - right. split.
    + unfold runs in *. rewrite H in Hl. apply app_inv_head in Hl. now symmetry.
    + now apply (ingest_run_call env c w (call_made c)).
Qed.

Lemma pipeline_run_witness :
  runs empty_world (ingest agreeable call_orders empty_world) [call_made call_orders]
  /\ ([call_made call_orders] = []
      \/ ([call_made call_orders] = [call_made call_orders]
          /\ reaches_pipeline agreeable call_orders)).
Proof.
  split; [vm_compute; reflexivity|].
  apply (pipeline_run_only_when_reached agreeable call_orders empty_world).
  vm_compute. reflexivity.
Defined.

(** *** What each way of ending leaves on the console *)

(** X4. When the factory raises, [ingest] ends with that exception, has
    not called [pipeline.run], and has printed nothing but the notice of
    the defaulting (when the destination table was defaulted): neither
    the summary nor the prompt's answer matter. *)
Theorem factory_error_surfaces_at_once
    (env : Env) (c : Call) (w : World) (e : exn) :
  SourceDestinationFactory env (source_uri c) (dest_uri c) = Raise e ->
  fst (ingest env c w) = Raise e
  /\ runs w (ingest env c w) []
  /\ console (snd (ingest env c w)) = (console w ++ defaulting_notice c)%list.
Proof.
  intro H. unfold runs. rewrite ingest_outcome. cbv zeta. rewrite H.
  cbn [fst snd console engine_calls].
  split; [reflexivity|]. split; [now rewrite app_nil_r | reflexivity].
Qed.

Lemma factory_error_witness :
  fst (ingest unknown_scheme call_merge_two_keys (mkWorld ["earlier"] []))
  = Raise (Error "ValueError")
  /\ runs (mkWorld ["earlier"] [])
          (ingest unknown_scheme call_merge_two_keys (mkWorld ["earlier"] [])) []
  /\ console (snd (ingest unknown_scheme call_merge_two_keys
                          (mkWorld ["earlier"] [])))
     = (["earlier"] ++ defaulting_notice call_merge_two_keys)%list.
Proof.
  exact (factory_error_surfaces_at_once
           unknown_scheme call_merge_two_keys (mkWorld ["earlier"] [])
           (Error "ValueError") eq_refl).
Defined.

(** X18. What raises between the factory and the summary surfaces at
    once: a destination table that cannot be encoded
    ([UnicodeEncodeError]), [dlt_dest] or [dlt.pipeline].  The run ends
    with that exception, before the summary and the prompt: the console
    has gained the notice of the defaulting at most, and no
    [pipeline.run] statement is begun. *)
Theorem setup_error_surfaces_before_summary
    (env : Env) (c : Call) (w : World) (f : Factory) (e : exn) :
  SourceDestinationFactory env (source_uri c) (dest_uri c) = Ok f ->
  (has_surrogate (dest_table_used c) = true /\ e = Error "UnicodeEncodeError")
  \/ (has_surrogate (dest_table_used c) = false
      /\ dlt_dest_result env (dest_uri c) = Raise e)
  \/ (has_surrogate (dest_table_used c) = false
      /\ dlt_dest_result env (dest_uri c) = Ok tt
      /\ dlt_pipeline_result env (run_pipeline (call_made c)) = Raise e) ->
  fst (ingest env c w) = Raise e
  /\ runs w (ingest env c w) []
  /\ console (snd (ingest env c w)) = (console w ++ defaulting_notice c)%list.
Proof.
  intros Hf H. unfold runs. rewrite ingest_outcome. cbv zeta. rewrite Hf.
  destruct H as [[Hs ->] | [[Hs Hd] | [Hs [Hd Hp]]]].
  - rewrite Hs. cbn [fst snd console engine_calls].
    split; [reflexivity|]. split; [now rewrite app_nil_r | reflexivity].
  - rewrite Hs, Hd. cbn [fst snd console engine_calls].
    split; [reflexivity|]. split; [now rewrite app_nil_r | reflexivity].
  - rewrite Hs, Hd, Hp. cbn [fst snd console engine_calls].
    split; [reflexivity|]. split; [now rewrite app_nil_r | reflexivity].
Qed.

Lemma setup_error_witness :
  fst (ingest no_pipeline call_orders empty_world)
  = Raise (Error "PipelineConfigError")
  /\ runs empty_world (ingest no_pipeline call_orders empty_world) []
  /\ console (snd (ingest no_pipeline call_orders empty_world))
     = (console empty_world ++ defaulting_notice call_orders)%list.
Proof.
  apply (setup_error_surfaces_before_summary
           no_pipeline call_orders empty_world (mkFactory "postgres" "duckdb")
           (Error "PipelineConfigError") eq_refl).
  right. right. split; [vm_compute; reflexivity|]. split; reflexivity.
Defined.

(** A table name that holds a lone surrogate stops the run at the
    encoding. *)
Example surrogate_table_is_not_encoded :
  ingest agreeable
         (mkCall "postgres://u:p@h/db" "duckdb://path/db" "orders"
                 (Some (String (ascii_of_N 237)
                          (String (ascii_of_N 178) (String (ascii_of_N 128) "x"))))
                 None None None None None)
         empty_world
  = (Raise (Error "UnicodeEncodeError"), empty_world).
Proof. vm_compute. reflexivity. Qed.

(** X5. When the user declines, the run does not end normally, the
    [pipeline.run] statement is not begun, and the line that announces
    the start of the ingestion is not printed. *)
Theorem declined_run_stops_short (env : Env) (c : Call) (w : World) :
  confirm_answer env the_prompt = false ->
  fst (ingest env c w) <> Ok tt
  /\ runs w (ingest env c w) []
  /\ (forall l, console (snd (ingest env c w)) = (console w ++ l)%list ->
      ~ In "[bold green]Starting the ingestion...[/bold green]" l).
Proof.
  intro Hc. split; [|split].
  - intro H. apply ingest_succeeds_only_if in H.
    destruct H as [[_ [_ [_ [_ H]]]] _]. rewrite Hc in H. discriminate.
  - destruct (ingest_calls env c w) as [H | H]; [exact H|].
    apply ingest_run_call in H. destruct H as [_ [_ [_ [_ [_ H]]]]].
    rewrite Hc in H. discriminate.
  - intros l Hl. destruct (ingest_console_lines env c w) as [l' [Hl' [_ Hs]]].
    rewrite Hl' in Hl. apply app_inv_head in Hl. subst l.
    intro Hx. apply in_app_or in Hx. destruct Hx as [Hx | Hx].
    + unfold defaulting_notice in Hx.
      destruct (truthy_str (dest_table c)); cbn [In] in Hx;
        [exact Hx | destruct Hx as [Hx | [Hx | []]]; discriminate Hx].
    + now apply (Hs Hc).
Qed.

Lemma declined_run_witness :
  fst (ingest declining call_delete_insert_id empty_world) <> Ok tt
  /\ runs empty_world (ingest declining call_delete_insert_id empty_world) []
  /\ (forall l,
        console (snd (ingest declining call_delete_insert_id empty_world))
        = (console empty_world ++ l)%list ->
        ~ In "[bold green]Starting the ingestion...[/bold green]" l).
Proof.
  exact (declined_run_stops_short declining call_delete_insert_id empty_world
           eq_refl).
Defined.

(** X6. When the [pipeline.run] statement, once begun, raises, [ingest]
    ends with the same exception, and the last lines on the console are
    the starting lines: no success is reported. *)
Theorem pipeline_error_propagates
    (env : Env) (c : Call) (w : World) (rc : RunCall) (e : exn) :
  runs w (ingest env c w) [rc] ->
  pipeline_run_result env rc = Raise e ->
  fst (ingest env c w) = Raise e
  /\ exists l, console (snd (ingest env c w)) = (l ++ starting_lines)%list.
Proof.
  intros Hr He. apply ingest_run_call in Hr. destruct Hr as [-> Hr].
  pose proof Hr as [[f [Hf Hl]] [Hs [Hd [Hp Hc]]]].
  split.
  - rewrite ingest_outcome. cbv zeta.
    rewrite Hf, Hs, Hd, Hp, (print_lines_accepted env _ _ Hl), Hc, He.
    reflexivity.
  - rewrite (ingest_console_reached env c w f Hf Hr), He.
    exists (console w ++ defaulting_notice c ++ summary_lines f c)%list.
    now_lines.
Qed.

Lemma pipeline_error_witness :
  runs empty_world (ingest failing_pipeline call_into_orders empty_world)
       [call_made call_into_orders]
  /\ fst (ingest failing_pipeline call_into_orders empty_world)
     = Raise (Error "PipelineStepFailed")
  /\ exists l,
       console (snd (ingest failing_pipeline call_into_orders empty_world))
       = (l ++ starting_lines)%list.
Proof.
  split; [vm_compute; reflexivity|].
  apply (pipeline_error_propagates failing_pipeline call_into_orders empty_world
           (call_made call_into_orders) (Error "PipelineStepFailed")).
  - vm_compute. reflexivity.
  - reflexivity.
Defined.

(** X7. When [ingest] returns normally, the last line printed reports
    the two schemes and the time taken: [finished_at - started_at] of
    the run information as [humanize.precisedelta] prints it, or nothing
    when the run information has no start time. *)
Theorem success_is_reported_with_elapsed_time
    (env : Env) (c : Call) (w : World) :
  fst (ingest env c w) = Ok tt ->
  exists f info,
    SourceDestinationFactory env (source_uri c) (dest_uri c) = Ok f
    /\ pipeline_run_result env (call_made c) = Ok info
    /\ last (console (snd (ingest env c w))) EmptyString
       = "[bold green]Successfully finished loading data from '"
           ++ source_scheme f ++ "' to '" ++ destination_scheme f ++ "' "
           ++ match started_at info with
              | Some started =>
                  "in " ++ precisedelta env (finished_at info - started)%Z
              | None => EmptyString
              end
           ++ " [/bold green]".
Proof.
  rewrite ingest_outcome. cbv zeta.
  destruct (SourceDestinationFactory env (source_uri c) (dest_uri c)) as [f|e];
    [|discriminate].
  destruct (has_surrogate (dest_table_used c)); [discriminate|].
  destruct (dlt_dest_result env (dest_uri c)) as [[]|e]; [|discriminate].
  destruct (dlt_pipeline_result env (run_pipeline (call_made c))) as [[]|e];
    [|discriminate].
  destruct (print_lines env (interpolated_lines f c) _) as [[u|e] co];
    [|discriminate].
  destruct (confirm_answer env the_prompt); [|discriminate].
  destruct (pipeline_run_result env (call_made c)) as [info|e]; [|discriminate].
  destruct (console_print_result env (success_line env f info)); [|discriminate].
  intros _. exists f, info. split; [reflexivity|]. split; [reflexivity|].
  cbn [snd console]. unfold success_lines.
  change [EmptyString; success_line env f info]
    with ([EmptyString] ++ [success_line env f info])%list.
  repeat rewrite app_assoc. rewrite last_last. reflexivity.
Qed.

Lemma success_report_witness :
  fst (ingest timed call_orders empty_world) = Ok tt
  /\ exists f info,
       SourceDestinationFactory timed (source_uri call_orders) (dest_uri call_orders)
       = Ok f
       /\ pipeline_run_result timed (call_made call_orders) = Ok info
       /\ last (console (snd (ingest timed call_orders empty_world))) EmptyString
          = "[bold green]Successfully finished loading data from '"
              ++ source_scheme f ++ "' to '" ++ destination_scheme f ++ "' "
              ++ match started_at info with
                 | Some started =>
                     "in " ++ precisedelta timed (finished_at info - started)%Z
                 | None => EmptyString
                 end
              ++ " [/bold green]".
Proof.
  split; [vm_compute; reflexivity|].
  apply (success_is_reported_with_elapsed_time timed call_orders empty_world).
  vm_compute. reflexivity.
Defined.

(** The closing line of a timed run, computed. *)
Example timed_run_reports_the_seconds :
  last (console (snd (ingest timed call_orders empty_world))) EmptyString
  = "[bold green]Successfully finished loading data from 'postgres' to 'duckdb' in 2.50 seconds [/bold green]".
Proof. vm_compute. reflexivity. Qed.

(** *** What the summary shows *)






(** *** The destination table, given or not *)

(** X10. A destination table given as the empty string is treated as one
    that is not given: the notice is printed first, and the pipeline
    writes to the source table's name and is named after it. *)
Theorem empty_dest_table_is_defaulted (env : Env) (c : Call) (w : World) :
  dest_table c = Some EmptyString ->
  (exists l, console (snd (ingest env c w))
             = (console w ++ EmptyString :: the_notice :: l)%list)
  /\ (forall rc, runs w (ingest env c w) [rc] ->
        rp_table (run_params rc) = source_table c
        /\ pipeline_name (run_pipeline rc) = derive (source_table c)).
Proof.
  intro Hd. split.
  - destruct (ingest_console_lines env c w) as [l [Hl _]].
    exists l. rewrite Hl. unfold defaulting_notice. rewrite Hd. reflexivity.
  - intros rc Hr. apply ingest_run_call in Hr. destruct Hr as [-> _].
    cbn [call_made run_params rp_table run_pipeline pipeline_name].
    unfold dest_table_used. rewrite Hd. split; reflexivity.
Qed.

Lemma empty_dest_table_witness :
  (exists l, console (snd (ingest agreeable call_empty_dest empty_world))
             = (console empty_world ++ EmptyString :: the_notice :: l)%list)
  /\ (forall rc, runs empty_world (ingest agreeable call_empty_dest empty_world) [rc] ->
        rp_table (run_params rc) = source_table call_empty_dest
        /\ pipeline_name (run_pipeline rc) = derive (source_table call_empty_dest)).
Proof.
  exact (empty_dest_table_is_defaulted agreeable call_empty_dest empty_world eq_refl).
Defined.

(** X11. A destination table that is given and not empty is used as it
    is, for the table written and for the pipeline name, while the
    source is still read from the source table; the notice of the
    defaulting is then not among the lines printed. *)
Theorem given_dest_table_is_used
    (env : Env) (c : Call) (w : World) (a : ascii) (t : string) :
  dest_table c = Some (String a t) ->
  (forall rc, runs w (ingest env c w) [rc] ->
     rp_table (run_params rc) = String a t
     /\ pipeline_name (run_pipeline rc) = derive (String a t)
     /\ ds_table (run_source rc) = source_table c)
  /\ (forall l, console (snd (ingest env c w)) = (console w ++ l)%list ->
      ~ In the_notice l).
Proof.
  intro Hd. split.
  - intros rc Hr. apply ingest_run_call in Hr. destruct Hr as [-> _].
    cbn [call_made run_params rp_table run_pipeline pipeline_name
         run_source ds_table].
    unfold dest_table_used. rewrite Hd. repeat split.
  - intros l Hl. destruct (ingest_console_lines env c w) as [l' [Hl' [Hn _]]].
    rewrite Hl' in Hl. apply app_inv_head in Hl. subst l.
    unfold defaulting_notice. rewrite Hd. exact Hn.
Qed.

Lemma given_dest_table_witness :
  runs empty_world (ingest agreeable call_into_orders empty_world)
       [call_made call_into_orders]
  /\ rp_table (run_params (call_made call_into_orders)) = "orders"
  /\ pipeline_name (run_pipeline (call_made call_into_orders)) = derive "orders"
  /\ ds_table (run_source (call_made call_into_orders)) = "staging_orders".
Proof.
  split; [vm_compute; reflexivity|].
  refine (proj1 (given_dest_table_is_used
                   agreeable call_into_orders empty_world "o" "rders" eq_refl)
                (call_made call_into_orders) _).
  vm_compute. reflexivity.
Defined.

(** *** What the pipeline is handed *)

(** X12. The write disposition handed to the pipeline is the strategy
    as given or [merge], and it is never [delete+insert]. *)
Theorem write_disposition_never_delete_insert
    (env : Env) (c : Call) (w : World) (rc : RunCall) :
  runs w (ingest env c w) [rc] ->
  write_disposition rc <> "delete+insert"
  /\ (write_disposition rc = strategy_given c \/ write_disposition rc = "merge").
Proof.
  intro Hr. apply ingest_run_call in Hr. destruct Hr as [-> _].
  cbn [call_made write_disposition]. unfold write_disposition_used.
  destruct (String.eqb (strategy_given c) "delete+insert") eqn:E.
  - split; [discriminate | now right].
  - apply String.eqb_neq in E. split; [exact E | now left].
Qed.

Lemma write_disposition_witness :
  runs empty_world (ingest agreeable call_delete_insert_id empty_world)
       [call_made call_delete_insert_id]
  /\ write_disposition (call_made call_delete_insert_id) <> "delete+insert".
Proof.
  split; [vm_compute; reflexivity|].
  refine (proj1 (write_disposition_never_delete_insert
                   agreeable call_delete_insert_id empty_world
                   (call_made call_delete_insert_id) _)).
  vm_compute. reflexivity.
Defined.

(** X13. Whatever the strategy, the source is asked for the source
    table at the source URI with the incremental key and the two bounds
    exactly as given, and the destination parameters carry the
    destination URI. *)
Theorem source_arguments_pass_through
    (env : Env) (c : Call) (w : World) (rc : RunCall) :
  runs w (ingest env c w) [rc] ->
  ds_uri (run_source rc) = source_uri c
  /\ ds_table (run_source rc) = source_table c
  /\ ds_incremental_key (run_source rc) = incremental_key c
  /\ ds_interval_start (run_source rc) = interval_start c
  /\ ds_interval_end (run_source rc) = interval_end c
  /\ rp_uri (run_params rc) = dest_uri c.
Proof.
  intro Hr. apply ingest_run_call in Hr. destruct Hr as [-> _].
  cbn [call_made run_source run_params ds_uri ds_table ds_incremental_key
       ds_interval_start ds_interval_end rp_uri].
  repeat split.
Qed.

Lemma source_arguments_witness :
  runs empty_world (ingest agreeable call_end_before_start empty_world)
       [call_made call_end_before_start]
  /\ ds_incremental_key (run_source (call_made call_end_before_start))
     = Some "updated_at"
  /\ ds_interval_start (run_source (call_made call_end_before_start))
     = Some (date 2024 1 2).
Proof.
  split; [vm_compute; reflexivity|].
  pose proof (source_arguments_pass_through
                agreeable call_end_before_start empty_world
                (call_made call_end_before_start)) as H.
  destruct H as [_ [_ [H3 [H4 _]]]].
  - vm_compute. reflexivity.
  - split; [exact H3 | exact H4].
Defined.

(** X14. Every pipeline is created with the same settings: the working
    directory [pipeline_data], the dataset [testschema], no system
    statistics in the progress log, and the destination of the
    destination URI; only its name varies with the call. *)
Theorem pipeline_settings_are_fixed
    (env : Env) (c : Call) (w : World) (rc : RunCall) :
  runs w (ingest env c w) [rc] ->
  run_pipeline rc
  = mkPipeline (pipeline_name (run_pipeline rc)) (dest_uri c) false
               "pipeline_data" "testschema".
Proof.
  intro Hr. apply ingest_run_call in Hr. destruct Hr as [-> _]. reflexivity.
Qed.

Lemma pipeline_settings_witness :
  runs empty_world (ingest agreeable call_into_orders empty_world)
       [call_made call_into_orders]
  /\ dataset_name (run_pipeline (call_made call_into_orders)) = "testschema".
Proof.
  split; [vm_compute; reflexivity|].
  rewrite (pipeline_settings_are_fixed
             agreeable call_into_orders empty_world
             (call_made call_into_orders)).
  - reflexivity.
  - vm_compute. reflexivity.
Defined.

(** *** The characters of the pipeline name *)

Lemma hex_digit_is_hex (d : Z) : is_hex_char (Sha256.hex_digit d) = true.
Proof.
  unfold Sha256.hex_digit.
  assert (H : (Z.to_nat (d mod 16) < 16)%nat).
  { pose proof (Z.mod_pos_bound d 16 eq_refl). lia. }
  revert H. generalize (Z.to_nat (d mod 16)). intros n H.
  do 16 (destruct n as [|n]; [reflexivity|]). lia.
Qed.

Lemma hex_nibbles_are_hex (n : nat) (x : Z) :
  all_chars is_hex_char (Sha256.hex_nibbles n x) = true.
Proof.
  induction n as [|n IH]; [reflexivity|].
  cbn [Sha256.hex_nibbles all_chars]. now rewrite hex_digit_is_hex, IH.
Qed.

Lemma all_chars_append (p : ascii -> bool) (s t : string) :
  all_chars p (s ++ t) = all_chars p s && all_chars p t.
Proof.
  induction s as [|a s IH]; [reflexivity|].
  cbn [append all_chars]. now rewrite IH, andb_assoc.
Qed.

Lemma derive_is_hex (table : string) : all_chars is_hex_char (derive table) = true.
Proof.
  unfold derive, Sha256.hexdigest, Sha256.hex_regs.
  repeat rewrite all_chars_append. repeat rewrite hex_nibbles_are_hex. reflexivity.
Qed.

(** X15. Whatever characters the destination table has, the name of the
    pipeline is made of the characters [0-9] and [a-f] only. *)
Theorem pipeline_name_is_lowercase_hex
    (env : Env) (c : Call) (w : World) (rc : RunCall) :
  runs w (ingest env c w) [rc] ->
  all_chars is_hex_char (pipeline_name (run_pipeline rc)) = true.
Proof.
  intro Hr. apply ingest_run_call in Hr. destruct Hr as [-> _].
  cbn [call_made run_pipeline pipeline_name]. apply derive_is_hex.
Qed.

Lemma pipeline_name_hex_witness :
  runs empty_world
       (ingest agreeable
               (mkCall "postgres://u:p@h/db" "duckdb://path/db" "orders"
                       (Some "My Table/../x") None None None None None)
               empty_world)
       [call_made (mkCall "postgres://u:p@h/db" "duckdb://path/db" "orders"
                          (Some "My Table/../x") None None None None None)]
  /\ all_chars is_hex_char
       (pipeline_name
          (run_pipeline
             (call_made (mkCall "postgres://u:p@h/db" "duckdb://path/db" "orders"
                                (Some "My Table/../x") None None None None None))))
     = true.
Proof.
  split; [vm_compute; reflexivity|].
  apply (pipeline_name_is_lowercase_hex
           agreeable
           (mkCall "postgres://u:p@h/db" "duckdb://path/db" "orders"
                   (Some "My Table/../x") None None None None None)
           empty_world).
  vm_compute. reflexivity.
Defined.

(** *** [example_uris] *)


